(** * Click2Eat customer service: the account handlers and their routes

    A shallow embedding of [src/controller/customer.controller.js] and
    [src/routes/customer.route.js].

    What is embedded and how:
    - JavaScript values are the inductive [jsval].  Two kinds of strings are
      kept symbolic, because the libraries that compute them are not part of
      the repository: the output of [bcrypt.hash] ([VBcrypt]) and the output
      of [jwt.sign] ([VJwt]).  What decides the handlers' answers is
      computed: [bcrypt.compare] looks at the first 72 bytes of a password,
      and [jwt.sign] refuses an [expiresIn] that is no timespan.  An
      ObjectId and its 24-digit hexadecimal spelling are one value,
      [VObjectId].
    - The collection behind the [Customer] model is a list of documents in
      insertion order together with the next identifier the store hands out.
      Store calls do not fail on their own; the only rejected promises are
      the ones the handlers can provoke: a cast error in [findById], a
      missing signing key or an unreadable [expiresIn] in [jwt.sign], a
      failed upload.
    - Request bodies carry string fields only; a field is either absent
      ([None]) or a string, and JavaScript truthiness ([truthy]) decides
      whether a handler treats it as given.
    - A handler is a computation in the monad [M]: it threads the store and
      stops early either with a response already sent ([reply]) or with an
      exception ([throw]) that the handler's [try]/[catch] turns into the
      500 response. *)

From Stdlib Require Import String Ascii List Bool Arith ZArith Lia.
From Stdlib Require Import Init.Byte.
Import ListNotations.
Open Scope string_scope.

Set Warnings "-register-all".

(** ** JavaScript values *)

Inductive jsval : Type :=
| VUndefined
| VNull
| VBool (b : bool)
| VNum (n : Z)
| VStr (s : string)
| VObjectId (n : nat)
| VDate (t : nat)
| VBcrypt (rounds : nat) (salt data : string)
| VJwt (payload : jsval) (key expiresIn : string)
| VObj (fields : list (string * jsval))
| VArr (items : list jsval).

(** Truthiness of a value, as [if (v)] and [!v] see it. *)
Definition truthy_val (v : jsval) : bool :=
  match v with
  | VUndefined | VNull => false
  | VBool b => b
  | VNum n => negb (Z.eqb n 0)
  | VStr s => negb (s =? "")
  | _ => true
  end.

Fixpoint assoc (k : string) (fields : list (string * jsval)) : option jsval :=
  match fields with
  | [] => None
  | (k', v) :: rest => if k' =? k then Some v else assoc k rest
  end.

(** [o.k]: [None] stands for the TypeError of reading a property of
    [undefined] or [null]. *)
Definition prop (o : jsval) (k : string) : option jsval :=
  match o with
  | VUndefined | VNull => None
  | VObj fields => Some (match assoc k fields with Some v => v | None => VUndefined end)
  | _ => Some VUndefined
  end.

(** [o?.k] *)
Definition opt_prop (o : jsval) (k : string) : jsval :=
  match prop o k with
  | Some v => v
  | None => VUndefined
  end.

(** A string field of a request body: absent or a string.  [truthy] keeps
    the string when JavaScript would take the [if (field)] branch. *)
Definition truthy (v : option string) : option string :=
  match v with
  | Some s => if s =? "" then None else Some s
  | None => None
  end.

(** [a || d] on a string that may be undefined. *)
Definition js_or (a : option string) (d : string) : string :=
  match truthy a with
  | Some s => s
  | None => d
  end.

(** ** Documents of the customer collection *)

Inductive pwfield : Type :=
| PwPlain (s : string)
| PwBcrypt (rounds : nat) (salt data : string).

Module Doc.

(** Modelled from the spec: the schema of [../models/customer.model], which
    is not among the sources.  The paths are those of the Customer entity
    of section 3, which are also the ones the controller reads and writes;
    the identifier is assigned by the store. *)
Record t : Type := mk {
  _id : nat;
  email : string;
  username : string;
  password : pwfield;
  phone : option string;
  image : option string;
  createdAt : nat
}.

Definition set_password (h : pwfield) (d : t) : t :=
  mk (_id d) (email d) (username d) h (phone d) (image d) (createdAt d).
Definition set_username (u : string) (d : t) : t :=
  mk (_id d) (email d) u (password d) (phone d) (image d) (createdAt d).
Definition set_email (e : string) (d : t) : t :=
  mk (_id d) e (username d) (password d) (phone d) (image d) (createdAt d).
Definition set_phone (p : string) (d : t) : t :=
  mk (_id d) (email d) (username d) (password d) (Some p) (image d) (createdAt d).
Definition set_image (u : string) (d : t) : t :=
  mk (_id d) (email d) (username d) (password d) (phone d) (Some u) (createdAt d).

Definition password_val (p : pwfield) : jsval :=
  match p with
  | PwPlain s => VStr s
  | PwBcrypt r s d => VBcrypt r s d
  end.

(** [image] is written as [null] at creation; [phone] is simply not set. *)
Definition image_val (d : t) : jsval :=
  match image d with Some u => VStr u | None => VNull end.
Definition phone_val (d : t) : jsval :=
  match phone d with Some p => VStr p | None => VUndefined end.

(** [d[field]] *)
Definition get (field : string) (d : t) : jsval :=
  if field =? "_id" then VObjectId (_id d)
  else if field =? "email" then VStr (email d)
  else if field =? "username" then VStr (username d)
  else if field =? "password" then password_val (password d)
  else if field =? "phone" then phone_val d
  else if field =? "image" then image_val d
  else if field =? "createdAt" then VDate (createdAt d)
  else VUndefined.

Definition paths : list string :=
  ["_id"; "email"; "username"; "password"; "phone"; "image"; "createdAt"].

(** The document as [res.json] serialises it: every stored path. *)
Definition toObject (d : t) : jsval :=
  VObj (map (fun f => (f, get f d)) paths).

(** [.select("a b c")]: the identifier and the named paths only. *)
Definition select (fields : list string) (d : t) : jsval :=
  VObj (map (fun f => (f, get f d)) ("_id" :: fields)).

End Doc.

Record Store : Type := {
  docs : list Doc.t;
  next_id : nat
}.

(** ** Requests, responses, configuration *)

Record Response : Type := {
  status : nat;
  json : jsval
}.

Record Request : Type := {
  authorization : option jsval;  (* the bearer token of the Authorization header *)
  params_id : jsval;             (* req.params.id *)
  body : list (string * string); (* req.body *)
  file : option (list byte);     (* req.file.buffer, filled in by multer *)
  customer : jsval;              (* req.customer *)
  user : jsval                   (* req.user *)
}.

Definition with_customer (c : jsval) (req : Request) : Request :=
  {| authorization := authorization req; params_id := params_id req;
     body := body req; file := file req; customer := c; user := user req |}.

Definition with_user (u : jsval) (req : Request) : Request :=
  {| authorization := authorization req; params_id := params_id req;
     body := body req; file := file req; customer := customer req; user := u |}.

Fixpoint body_field (k : string) (b : list (string * string)) : option string :=
  match b with
  | [] => None
  | (k', v) :: rest => if k' =? k then Some v else body_field k rest
  end.

(** [process.env] *)
Record Env : Type := {
  env_JWT_SECRET : option string;
  env_JWT_EXPIRES : option string
}.

(** What a request draws from outside the process: the salt bcrypt
    generates, the time, the answer of the image host ([None]: the upload
    stream reports an error) and whether a token has run out. *)
Record World : Type := {
  salt : string;
  now : nat;
  upload_stream : list byte -> option string;
  expired : jsval -> bool
}.

Definition JWT_SECRET (env : Env) : string := js_or (env_JWT_SECRET env) "your-secret-key".
Definition JWT_EXPIRES (env : Env) : string := js_or (env_JWT_EXPIRES env) "7d".
Definition SALT_ROUNDS : nat := 10.

(** ** The handler monad *)

Inductive exit : Type :=
| Reply (r : Response)
| Raise (e : string).

Definition M (A : Type) : Type := Store -> (A + exit) * Store.

Definition ret {A} (a : A) : M A := fun s => (inl a, s).
Definition bind {A B} (m : M A) (k : A -> M B) : M B :=
  fun s => match m s with
           | (inl a, s') => k a s'
           | (inr e, s') => (inr e, s')
           end.
Definition reply {A} (r : Response) : M A := fun s => (inr (Reply r), s).
Definition throw {A} (e : string) : M A := fun s => (inr (Raise e), s).

Declare Scope handler_scope.
Delimit Scope handler_scope with handler.
Notation "x <- m ;; k" := (bind m (fun x => k))
  (at level 100, m at next level, right associativity) : handler_scope.
Notation "m ;;; k" := (bind m (fun _ => k))
  (at level 100, right associativity) : handler_scope.
Open Scope handler_scope.

(** [try { body } catch (e) { handler }] around a whole request handler. *)
Definition try_catch (m : M Response) (handler : string -> Response)
  : Store -> Response * Store :=
  fun s => match m s with
           | (inl r, s') => (r, s')
           | (inr (Reply r), s') => (r, s')
           | (inr (Raise e), s') => (handler e, s')
           end.

Definition res_status_json (code : nat) (o : list (string * jsval)) : Response :=
  {| status := code; json := VObj o |}.
Definition res_json (o : list (string * jsval)) : Response :=
  res_status_json 200 o.

(** ** The libraries the controller calls *)

Module bcrypt.

(** [bcrypt.hash(data, rounds)]: a salted one-way hash; the salt is the
    one the world supplies for this call. *)
Definition hash (w : World) (data : string) (rounds : nat) : M pwfield :=
  ret (PwBcrypt rounds (salt w) data).

(** What bcrypt reads of a password: its first 72 bytes (a string stands
    for its bytes). *)
Definition key (data : string) : string := substring 0 72 data.

(** [bcrypt.compare(data, encrypted)]: true exactly when [encrypted] is a
    hash of a password with the same first 72 bytes as [data]; a stored
    value that is no hash matches nothing. *)
Definition verifies (data : string) (encrypted : pwfield) : bool :=
  match encrypted with
  | PwBcrypt _ _ d => key data =? key d
  | PwPlain _ => false
  end.

Definition compare (data : string) (encrypted : pwfield) : M bool :=
  ret (verifies data encrypted).

End bcrypt.

(** The timespan strings of the [ms] package (2.1), which [jwt.sign] uses
    to read [expiresIn]: at most 100 characters, a number
    [-?(\d+)?\.?\d+], spaces, and optionally a unit, in any case. *)
Module ms.

Definition is_digit (c : ascii) : bool :=
  (48 <=? nat_of_ascii c)%nat && (nat_of_ascii c <=? 57)%nat.

Definition lower (c : ascii) : ascii :=
  if (65 <=? nat_of_ascii c)%nat && (nat_of_ascii c <=? 90)%nat
  then ascii_of_nat (nat_of_ascii c + 32)
  else c.

Fixpoint lowercase (s : string) : string :=
  match s with
  | EmptyString => EmptyString
  | String c rest => String (lower c) (lowercase rest)
  end.

Fixpoint skip_digits (s : string) : string :=
  match s with
  | String c rest => if is_digit c then skip_digits rest else s
  | EmptyString => s
  end.

Fixpoint skip_spaces (s : string) : string :=
  match s with
  | String c rest => if Ascii.eqb c " " then skip_spaces rest else s
  | EmptyString => s
  end.

Definition starts_with_digit (s : string) : bool :=
  match s with
  | String c _ => is_digit c
  | EmptyString => false
  end.

(** The number at the head of the string; the result is what follows it. *)
Definition number (s : string) : option string :=
  let s := match s with
           | String c rest => if Ascii.eqb c "-" then rest else s
           | EmptyString => s
           end in
  match skip_digits s with
  | String c rest =>
      if Ascii.eqb c "."
      then if starts_with_digit rest then Some (skip_digits rest) else None
      else if starts_with_digit s then Some (String c rest) else None
  | EmptyString => if starts_with_digit s then Some EmptyString else None
  end.

Definition units : list string :=
  ["milliseconds"; "millisecond"; "msecs"; "msec"; "ms";
   "seconds"; "second"; "secs"; "sec"; "s";
   "minutes"; "minute"; "mins"; "min"; "m";
   "hours"; "hour"; "hrs"; "hr"; "h";
   "days"; "day"; "d";
   "weeks"; "week"; "w";
   "years"; "year"; "yrs"; "yr"; "y"].

(** [ms(str)] is a number, not [undefined]. *)
Definition defined (str : string) : bool :=
  (String.length str <=? 100)%nat &&
  match number str with
  | Some rest =>
      let unit := lowercase (skip_spaces rest) in
      (unit =? "") || existsb (String.eqb unit) units
  | None => false
  end.

End ms.

Module jwt.

(** [jwt.sign(payload, secretOrPrivateKey, { expiresIn })] throws when the
    key is undefined or empty, and when [expiresIn] is a string that [ms]
    does not read as a timespan. *)
Definition sign (payload : list (string * jsval)) (secretOrPrivateKey : option string)
                (expiresIn : string) : M jsval :=
  match truthy secretOrPrivateKey with
  | Some key =>
      if ms.defined expiresIn
      then ret (VJwt (VObj payload) key expiresIn)
      else throw "expiresIn should be a number of seconds or string representing a timespan"
  | None => throw "secretOrPrivateKey must have a value"
  end.

End jwt.

(** Queries of [findOne], as the controller writes them. *)
Inductive query : Type :=
| ByEmail (email : string)
| ByUsername (username : string)
| Or (alternatives : list query).

Fixpoint matches (q : query) (d : Doc.t) : bool :=
  match q with
  | ByEmail e => Doc.email d =? e
  | ByUsername u => Doc.username d =? u
  | Or qs => existsb (fun q' => matches q' d) qs
  end.

Definition has_id (n : nat) (d : Doc.t) : bool := Nat.eqb (Doc._id d) n.

(** The methods of the Mongoose model the controller calls, on the
    collection held in the store. *)
Module Customer.

Definition findOne (q : query) : M (option Doc.t) :=
  fun s => (inl (find (matches q) (docs s)), s).

(** [findById(undefined)] and [findById(null)] look for [_id: null] and
    find nothing; a string that is no ObjectId is a cast error. *)
Definition findById (id : jsval) : M (option Doc.t) :=
  match id with
  | VObjectId n => fun s => (inl (find (has_id n) (docs s)), s)
  | VUndefined | VNull => ret None
  | _ => throw "CastError"
  end.

(** [Customer.create({ email, username, password, image: null })] *)
Definition create (w : World) (email username : string) (password : pwfield)
  : M Doc.t :=
  fun s =>
    let d := Doc.mk (next_id s) email username password None None (now w) in
    (inl d, {| docs := docs s ++ [d]; next_id := S (next_id s) |}).

(** [customer.save()]: writes the document back under its identifier. *)
Definition save (d : Doc.t) : M unit :=
  fun s =>
    (inl tt,
     {| docs := map (fun d' => if has_id (Doc._id d) d' then d else d') (docs s);
        next_id := next_id s |}).

Definition findByIdAndDelete (id : jsval) : M (option Doc.t) :=
  bind (findById id) (fun found =>
    match found with
    | Some d => fun s =>
        (inl (Some d),
         {| docs := filter (fun d' => negb (has_id (Doc._id d) d')) (docs s);
            next_id := next_id s |})
    | None => ret None
    end).

Definition find_all : M (list Doc.t) :=
  fun s => (inl (docs s), s).

End Customer.

(** [uploadToCloudinary(fileBuffer)]: resolves with the secure URL, rejects
    with the error of the upload stream. *)
Definition uploadToCloudinary (w : World) (fileBuffer : list byte) : M string :=
  match upload_stream w fileBuffer with
  | Some secure_url => ret secure_url
  | None => throw "upload failed"
  end.

(** ** The controller *)

Section Controller.

Variable env : Env.
Variable w : World.

Definition register (req : Request) : Store -> Response * Store :=
  try_catch
    (match truthy (body_field "email" (body req)),
           truthy (body_field "username" (body req)),
           truthy (body_field "password" (body req)) with
     | Some email, Some username, Some password =>
         exists_ <- Customer.findOne (Or [ByEmail email; ByUsername username]) ;;
         match exists_ with
         | Some _ => reply (res_status_json 409 [("message", VStr "Customer already exists")])
         | None =>
             hashedPassword <- bcrypt.hash w password SALT_ROUNDS ;;
             newCustomer <- Customer.create w email username hashedPassword ;;
             token <- jwt.sign [("id", Doc.get "_id" newCustomer);
                                ("email", Doc.get "email" newCustomer)]
                               (env_JWT_SECRET env) "7d" ;;
             ret (res_status_json 201
                    [("message", VStr "Registration successful");
                     ("token", token);
                     ("customer", VObj [("id", Doc.get "_id" newCustomer);
                                        ("email", Doc.get "email" newCustomer);
                                        ("username", Doc.get "username" newCustomer);
                                        ("image", Doc.get "image" newCustomer)])])
         end
     | _, _, _ => reply (res_status_json 400 [("message", VStr "All fields are required")])
     end)
    (fun _ => res_status_json 500 [("message", VStr "Server error")]).

Definition login_summary (customer : Doc.t) : list (string * jsval) :=
  [("customer_id", Doc.get "_id" customer);
   ("email", Doc.get "email" customer);
   ("username", Doc.get "username" customer);
   ("phone", Doc.get "phone" customer);
   ("image", Doc.get "image" customer)].

Definition login (req : Request) : Store -> Response * Store :=
  try_catch
    (match truthy (body_field "email" (body req)),
           truthy (body_field "password" (body req)) with
     | Some email, Some password =>
         found <- Customer.findOne (ByEmail email) ;;
         match found with
         | None => reply (res_status_json 401 [("message", VStr "Invalid email or password")])
         | Some customer =>
             isMatch <- bcrypt.compare password (Doc.password customer) ;;
             if negb isMatch
             then reply (res_status_json 401 [("message", VStr "Invalid email or password")])
             else
               token <- jwt.sign (login_summary customer)
                                 (Some (JWT_SECRET env)) (JWT_EXPIRES env) ;;
               ret (res_json [("message", VStr "Login successful");
                              ("customer", VObj (login_summary customer));
                              ("token", token)])
         end
     | _, _ => reply (res_status_json 400 [("message", VStr "Email and password required")])
     end)
    (fun _ => res_status_json 500 [("error", VStr "Internal server error")]).

Definition getProfile (req : Request) : Store -> Response * Store :=
  try_catch
    (match prop (customer req) "customer_id" with
     | None => throw "TypeError"
     | Some customer_id =>
         found <- Customer.findById customer_id ;;
         match option_map (Doc.select ["email"; "username"; "phone"; "image"; "createdAt"])
                          found with
         | None => reply (res_status_json 404 [("message", VStr "Customer not found")])
         | Some customer =>
             ret (res_json
                    [("customer", VObj [("customer_id", opt_prop customer "_id");
                                        ("email", opt_prop customer "email");
                                        ("username", opt_prop customer "username");
                                        ("phone", opt_prop customer "phone");
                                        ("image", opt_prop customer "image");
                                        ("createdAt", opt_prop customer "createdAt")])])
         end
     end)
    (fun _ => res_status_json 500 [("error", VStr "Internal server error")]).

Definition update_summary (customer : Doc.t) : list (string * jsval) :=
  [("customer_id", Doc.get "_id" customer);
   ("email", Doc.get "email" customer);
   ("username", Doc.get "username" customer);
   ("phone", Doc.get "phone" customer);
   ("image", Doc.get "image" customer)].

(** The assignments of [update] between the lookup and the save, on the
    document held in memory: first the four body fields, then the image. *)
Definition assign_fields (req : Request) (customer : Doc.t) : M Doc.t :=
  customer <- match truthy (body_field "password" (body req)) with
              | Some password =>
                  hashed <- bcrypt.hash w password SALT_ROUNDS ;;
                  ret (Doc.set_password hashed customer)
              | None => ret customer
              end ;;
  customer <- ret match truthy (body_field "username" (body req)) with
                  | Some username => Doc.set_username username customer
                  | None => customer
                  end ;;
  customer <- ret match truthy (body_field "email" (body req)) with
                  | Some email => Doc.set_email email customer
                  | None => customer
                  end ;;
  ret match truthy (body_field "phone" (body req)) with
      | Some phone => Doc.set_phone phone customer
      | None => customer
      end.

Definition assign_image (req : Request) (customer : Doc.t) : M Doc.t :=
  match file req with
  | Some buffer =>
      cloudinaryUrl <- uploadToCloudinary w buffer ;;
      ret (Doc.set_image cloudinaryUrl customer)
  | None => ret customer
  end.

Definition update (req : Request) : Store -> Response * Store :=
  try_catch
    (found <- Customer.findById (params_id req) ;;
     match found with
     | None => reply (res_status_json 404 [("message", VStr "Customer not found")])
     | Some customer =>
         customer <- assign_fields req customer ;;
         customer <- assign_image req customer ;;
         Customer.save customer ;;;
         ret (res_json [("message", VStr "Profile updated successfully");
                        ("customer", VObj (update_summary customer))])
     end)
    (fun _ => res_status_json 500 [("error", VStr "Internal server error")]).

Definition deleteProfile (req : Request) : Store -> Response * Store :=
  try_catch
    (found <- Customer.findByIdAndDelete (params_id req) ;;
     match found with
     | None => reply (res_status_json 404 [("message", VStr "Customer not found")])
     | Some _ => ret (res_json [("message", VStr "Profile deleted successfully")])
     end)
    (fun _ => res_status_json 500 [("error", VStr "Internal server error")]).

Definition getAll (req : Request) : Store -> Response * Store :=
  try_catch
    (if negb (truthy_val (opt_prop (user req) "is_admin"))
     then reply (res_status_json 403 [("error", VStr "Access denied")])
     else
       list <- Customer.find_all ;;
       ret (res_json [("success", VBool true);
                      ("list", VArr (map Doc.toObject list))]))
    (fun _ => res_status_json 500 [("error", VStr "Internal server error")]).

End Controller.

(** ** The gates and the router *)

Definition Handler : Type := Request -> Store -> Response * Store.
Definition Middleware : Type := Handler -> Handler.

(** [upload.single("image")] with memory storage: parsing the multipart
    body is what fills [body] and [file] of the request, so the middleware
    passes the request on as it stands. *)
Definition upload_single (name : string) : Middleware := fun next => next.

Section Router.

(** The two middleware modules the route file requires; they are not among
    the sources, so the routing table takes them as they come. *)
Variable authenticateToken : Middleware.
Variable authenticateTokenAdmin : Middleware.
Variable env : Env.
Variable w : World.

(** The routing table of [customer.route.js]: method and path pattern to
    the chain of middleware and handler mounted there. *)
Definition router (method path : string) : option Handler :=
  if (method =? "POST") && (path =? "/register") then
    Some (register env w)
  else if (method =? "POST") && (path =? "/login") then
    Some (login env)
  else if (method =? "GET") && (path =? "/profile") then
    Some (authenticateToken getProfile)
  else if (method =? "PUT") && (path =? "/profile/:id") then
    Some (authenticateToken (upload_single "image" (update w)))
  else if (method =? "DELETE") && (path =? "/profile/:id") then
    Some (authenticateToken deleteProfile)
  else if (method =? "GET") && (path =? "/customer") then
    Some (authenticateTokenAdmin getAll)
  else None.

End Router.

Inductive verify_result : Type :=
| Verified (claims : jsval)
| InvalidSignature
| Expired
| Malformed.

Module Gate.

(** Modelled from the spec: the token verifier of section 4.2, which the
    gates call; the middleware files that use it are not among the sources.
    It checks the signature against the shared secret, then the expiry, and
    returns the decoded claims. *)
Definition verify (w : World) (secret : string) (token : jsval) : verify_result :=
  match token with
  | VJwt claims key _ =>
      if key =? secret
      then if expired w token then Expired else Verified claims
      else InvalidSignature
  | _ => Malformed
  end.

(** Modelled from the spec: the Auth Gate of section 4.3
    ([../middleware/authMiddleware] is not among the sources).  No bearer
    token or a token that does not verify: unauthorized, and the wrapped
    handler is not called.  Otherwise the decoded claims become the
    request's identity context, [req.customer]. *)
Definition authenticateToken (env : Env) (w : World) : Middleware :=
  fun next req =>
    match authorization req with
    | None => fun s => (res_status_json 401 [("message", VStr "Unauthorized")], s)
    | Some token =>
        match verify w (JWT_SECRET env) token with
        | Verified claims => next (with_customer claims req)
        | _ => fun s => (res_status_json 401 [("message", VStr "Unauthorized")], s)
        end
    end.

(** Modelled from the spec: the Admin Gate of section 4.4
    ([../middleware/authMiddlewareAdmin] is not among the sources): the Auth
    Gate's protocol, and forbidden unless the claims carry a truthy
    [is_admin].  The claims are attached where [getAll] reads them,
    [req.user]. *)
Definition authenticateTokenAdmin (env : Env) (w : World) : Middleware :=
  fun next req =>
    match authorization req with
    | None => fun s => (res_status_json 401 [("message", VStr "Unauthorized")], s)
    | Some token =>
        match verify w (JWT_SECRET env) token with
        | Verified claims =>
            if truthy_val (opt_prop claims "is_admin")
            then next (with_user claims req)
            else fun s => (res_status_json 403 [("message", VStr "Forbidden")], s)
        | _ => fun s => (res_status_json 401 [("message", VStr "Unauthorized")], s)
        end
    end.

End Gate.

(** The routing table with the gates of the spec mounted. *)
Definition app (env : Env) (w : World) (method path : string) : option Handler :=
  router (Gate.authenticateToken env w) (Gate.authenticateTokenAdmin env w)
         env w method path.

(** ** Names for the responses and documents the properties speak about *)

Definition invalid_credentials : Response :=
  res_status_json 401 [("message", VStr "Invalid email or password")].

Definition internal_error : Response :=
  res_status_json 500 [("error", VStr "Internal server error")].

Definition profile_updated (d : Doc.t) : Response :=
  res_json [("message", VStr "Profile updated successfully");
            ("customer", VObj (update_summary d))].

(** The document [register] creates in store [s]. *)
Definition new_customer (w : World) (s : Store) (email username password : string) : Doc.t :=
  Doc.mk (next_id s) email username (PwBcrypt SALT_ROUNDS (salt w) password)
         None None (now w).

Definition register_claims (d : Doc.t) : list (string * jsval) :=
  [("id", VObjectId (Doc._id d)); ("email", VStr (Doc.email d))].

Definition register_summary (d : Doc.t) : list (string * jsval) :=
  [("id", VObjectId (Doc._id d)); ("email", VStr (Doc.email d));
   ("username", VStr (Doc.username d)); ("image", Doc.image_val d)].

Definition registered (d : Doc.t) (key : string) : Response :=
  res_status_json 201
    [("message", VStr "Registration successful");
     ("token", VJwt (VObj (register_claims d)) key "7d");
     ("customer", VObj (register_summary d))].

Definition logged_in (env : Env) (d : Doc.t) : Response :=
  res_json [("message", VStr "Login successful");
            ("customer", VObj (login_summary d));
            ("token", VJwt (VObj (login_summary d)) (JWT_SECRET env) (JWT_EXPIRES env))].

(** A password path that holds a bcrypt hash of cost 10. *)
Definition stored_as_hash (d : Doc.t) : bool :=
  match Doc.password d with
  | PwBcrypt rounds _ _ => Nat.eqb rounds 10
  | PwPlain _ => false
  end.

(** The answer of [getProfile] for a stored document. *)
Definition profile_of (d : Doc.t) : Response :=
  res_json [("customer", VObj [("customer_id", VObjectId (Doc._id d));
                               ("email", VStr (Doc.email d));
                               ("username", VStr (Doc.username d));
                               ("phone", Doc.phone_val d);
                               ("image", Doc.image_val d);
                               ("createdAt", VDate (Doc.createdAt d))])].

Definition not_found : Response :=
  res_status_json 404 [("message", VStr "Customer not found")].

(** ** Sample configurations, stores and requests *)

Module Sample.

(** No variable set in the environment. *)
Definition env_unset : Env :=
  {| env_JWT_SECRET := None; env_JWT_EXPIRES := None |}.

Definition env_set : Env :=
  {| env_JWT_SECRET := Some "s3cret"; env_JWT_EXPIRES := Some "1h" |}.

(** The image host refuses every upload. *)
Definition world_down : World :=
  {| salt := "NaCl"; now := 5;
     upload_stream := fun _ => None; expired := fun _ => false |}.

Definition world_up : World :=
  {| salt := "NaCl"; now := 5;
     upload_stream := fun _ => Some "https://img.example/p.png";
     expired := fun _ => false |}.

Definition empty : Store := {| docs := []; next_id := 0 |}.

Definition alice : Doc.t :=
  Doc.mk 0 "alice@example.com" "alice" (PwBcrypt 10 "NaCl" "wonderland")
         (Some "012345") None 5.

Definition bob : Doc.t :=
  Doc.mk 1 "bob@example.com" "bob" (PwBcrypt 10 "NaCl" "builder")
         None (Some "https://img.example/bob.png") 6.

Definition two : Store := {| docs := [alice; bob]; next_id := 2 |}.

Definition request (b : list (string * string)) : Request :=
  {| authorization := None; params_id := VUndefined; body := b;
     file := None; customer := VUndefined; user := VUndefined |}.

Definition bearer (token : jsval) (id : jsval) (b : list (string * string))
                  (f : option (list byte)) : Request :=
  {| authorization := Some token; params_id := id; body := b;
     file := f; customer := VUndefined; user := VUndefined |}.

Definition carol_form : list (string * string) :=
  [("email", "carol@example.com"); ("username", "carol"); ("password", "looking-glass")].

(** The token [login] hands to bob. *)
Definition bob_token (env : Env) : jsval :=
  VJwt (VObj (login_summary bob)) (JWT_SECRET env) (JWT_EXPIRES env).

End Sample.

(** * Properties *)

(** ** The store *)

Ltac unfold_monad :=
  unfold Customer.findByIdAndDelete in *;
  unfold try_catch, bind, ret, reply, throw,
         Customer.findOne, Customer.findById, Customer.create, Customer.save,
         Customer.find_all,
         bcrypt.hash, bcrypt.compare, jwt.sign, uploadToCloudinary in *.

Lemma find_has_id (n : nat) (l : list Doc.t) (d : Doc.t) :
  find (has_id n) l = Some d -> Doc._id d = n /\ In d l.
Proof.
  intros H. apply find_some in H. destruct H as [Hin Hid].
  unfold has_id in Hid. apply Nat.eqb_eq in Hid. auto.
Qed.

Lemma find_saved (n : nat) (l : list Doc.t) (d d' : Doc.t) :
  find (has_id n) l = Some d -> Doc._id d' = n ->
  find (has_id n) (map (fun x => if has_id (Doc._id d') x then d' else x) l) = Some d'.
Proof.
  intros Hfind Hid. rewrite Hid.
  induction l as [|x l IH]; [discriminate|].
  simpl in *. destruct (has_id n x) eqn:Hx.
  - simpl. unfold has_id. rewrite Hid, Nat.eqb_refl. reflexivity.
  - simpl. rewrite Hx. auto.
Qed.


Lemma find_deleted (n : nat) (l : list Doc.t) :
  find (has_id n) (filter (fun x => negb (has_id n x)) l) = None.
Proof.
  induction l as [|x l IH]; [reflexivity|].
  simpl. destruct (has_id n x) eqn:Hx; simpl; [exact IH|].
  rewrite Hx. exact IH.
Qed.


(** The combined query of [register] finds a document exactly when some
    document has the e-mail address or the user name. *)
Lemma find_email_or_username (email username : string) (l : list Doc.t) :
  find (matches (Or [ByEmail email; ByUsername username])) l = None <->
  (forall c, In c l -> Doc.email c <> email /\ Doc.username c <> username).
Proof.
  split.
  - intros Hnone c Hin.
    pose proof (find_none _ _ Hnone c Hin) as Hc. simpl in Hc.
    rewrite orb_false_r in Hc. apply orb_false_iff in Hc.
    destruct Hc as [He Hu]. split; apply String.eqb_neq; assumption.
  - intros Hall. induction l as [|x l IH]; [reflexivity|].
    simpl. destruct (Hall x (or_introl eq_refl)) as [He Hu].
    apply String.eqb_neq in He, Hu. rewrite He, Hu. simpl.
    apply IH. intros c Hc. apply Hall. right. exact Hc.
Qed.

(** ** Register: duplicates *)

(** C8. When e-mail, user name and password are all given and some stored
    customer has the same e-mail address or the same user name, [register]
    answers 409 "Customer already exists" and leaves the store as it was.
    The decision is the one [findOne] call on the query
    [$or: [{email}, {username}]]. *)
Theorem register_conflict
  (env : Env) (w : World) (req : Request) (s : Store)
  (email username password : string) (c : Doc.t) :
  truthy (body_field "email" (body req)) = Some email ->
  truthy (body_field "username" (body req)) = Some username ->
  truthy (body_field "password" (body req)) = Some password ->
  In c (docs s) ->
  Doc.email c = email \/ Doc.username c = username ->
  find (matches (Or [ByEmail email; ByUsername username])) (docs s) <> None /\
  register env w req s
  = (res_status_json 409 [("message", VStr "Customer already exists")], s).
Proof.
  intros He Hu Hp Hin Hdup.
  assert (Hfound : find (matches (Or [ByEmail email; ByUsername username])) (docs s) <> None).
  { intros Hnone. rewrite find_email_or_username in Hnone.
    destruct (Hnone c Hin) as [Hne Hnu]. destruct Hdup; contradiction. }
  split; [exact Hfound|].
  unfold register. rewrite He, Hu, Hp. unfold_monad.
  destruct (find _ (docs s)); [reflexivity | contradiction].
Qed.

Lemma register_conflict_witness :
  register Sample.env_set Sample.world_up
    (Sample.request [("email", "new@example.com"); ("username", "bob"); ("password", "pw")])
    Sample.two
  = (res_status_json 409 [("message", VStr "Customer already exists")], Sample.two).
Proof.
  apply (register_conflict Sample.env_set Sample.world_up
           (Sample.request [("email", "new@example.com"); ("username", "bob"); ("password", "pw")])
           Sample.two "new@example.com" "bob" "pw" Sample.bob).
  - reflexivity.
  - reflexivity.
  - reflexivity.
  - simpl. right. left. reflexivity.
  - right. reflexivity.
Defined.

(** ** Login: one answer for both failures *)

(** C4. With e-mail and password both given, a login whose e-mail matches
    no customer and a login whose password does not verify against the
    stored hash of the matching customer get the same response, 401
    "Invalid email or password"; the store is untouched. *)
Theorem login_failures_indistinguishable
  (env : Env)
  (req1 : Request) (s1 : Store) (email1 password1 : string)
  (req2 : Request) (s2 : Store) (email2 password2 : string) (c : Doc.t) :
  truthy (body_field "email" (body req1)) = Some email1 ->
  truthy (body_field "password" (body req1)) = Some password1 ->
  find (matches (ByEmail email1)) (docs s1) = None ->
  truthy (body_field "email" (body req2)) = Some email2 ->
  truthy (body_field "password" (body req2)) = Some password2 ->
  find (matches (ByEmail email2)) (docs s2) = Some c ->
  bcrypt.verifies password2 (Doc.password c) = false ->
  login env req1 s1 = (invalid_credentials, s1) /\
  login env req2 s2 = (invalid_credentials, s2) /\
  fst (login env req1 s1) = fst (login env req2 s2).
Proof.
  intros He1 Hp1 Hnone He2 Hp2 Hsome Hbad.
  assert (H1 : login env req1 s1 = (invalid_credentials, s1)).
  { unfold login. rewrite He1, Hp1. unfold_monad. rewrite Hnone. reflexivity. }
  assert (H2 : login env req2 s2 = (invalid_credentials, s2)).
  { unfold login. rewrite He2, Hp2. unfold_monad. rewrite Hsome, Hbad. reflexivity. }
  rewrite H1, H2. auto.
Qed.

Lemma login_failures_indistinguishable_witness :
  fst (login Sample.env_set
         (Sample.request [("email", "nobody@example.com"); ("password", "builder")])
         Sample.two)
  = fst (login Sample.env_set
           (Sample.request [("email", "bob@example.com"); ("password", "wrong")])
           Sample.two).
Proof.
  apply (login_failures_indistinguishable Sample.env_set
           (Sample.request [("email", "nobody@example.com"); ("password", "builder")])
           Sample.two "nobody@example.com" "builder"
           (Sample.request [("email", "bob@example.com"); ("password", "wrong")])
           Sample.two "bob@example.com" "wrong" Sample.bob);
    reflexivity.
Defined.

(** ** ListAll *)

(** C3. [getAll] itself tests [req.user?.is_admin]: it answers 403 exactly
    when that flag is not truthy, whatever gate ran before.  With a truthy
    flag it answers with every stored document as it is stored, the
    [password] path included. *)
Theorem getAll_forbidden_iff_not_admin (req : Request) (s : Store) :
  (status (fst (getAll req s)) = 403
   <-> truthy_val (opt_prop (user req) "is_admin") = false) /\
  (if truthy_val (opt_prop (user req) "is_admin")
   then getAll req s
        = (res_json [("success", VBool true);
                     ("list", VArr (map Doc.toObject (docs s)))], s)
   else getAll req s = (res_status_json 403 [("error", VStr "Access denied")], s)) /\
  (forall d, prop (Doc.toObject d) "password"
             = Some (Doc.password_val (Doc.password d))).
Proof.
  unfold getAll. unfold_monad.
  destruct (truthy_val (opt_prop (user req) "is_admin")); simpl.
  - repeat split; intros; discriminate.
  - repeat split; intros; reflexivity.
Qed.


(** ** UpdateProfile *)

(** The four assignments from the body never fail and never touch the
    store; each path takes the body's value when that is truthy and keeps
    the document's value otherwise. *)
Lemma assign_fields_run (w : World) (req : Request) (d : Doc.t) (s : Store) :
  exists d1,
    assign_fields w req d s = (inl d1, s) /\
    Doc._id d1 = Doc._id d /\
    Doc.createdAt d1 = Doc.createdAt d /\
    Doc.image d1 = Doc.image d /\
    Doc.password d1
    = match truthy (body_field "password" (body req)) with
      | Some p => PwBcrypt SALT_ROUNDS (salt w) p
      | None => Doc.password d
      end /\
    Doc.username d1
    = match truthy (body_field "username" (body req)) with
      | Some u => u
      | None => Doc.username d
      end /\
    Doc.email d1
    = match truthy (body_field "email" (body req)) with
      | Some e => e
      | None => Doc.email d
      end /\
    Doc.phone d1
    = match truthy (body_field "phone" (body req)) with
      | Some p => Some p
      | None => Doc.phone d
      end.
Proof.
  unfold assign_fields. unfold_monad.
  destruct (truthy (body_field "password" (body req)));
    destruct (truthy (body_field "username" (body req)));
    destruct (truthy (body_field "email" (body req)));
    destruct (truthy (body_field "phone" (body req)));
    eexists; repeat split; reflexivity.
Qed.

(** What [update] does once the path identifier names a stored document:
    one save of the fully edited document, or, when the upload fails, the
    500 response and no save at all. *)
Lemma update_run (w : World) (req : Request) (s : Store) (n : nat) (d : Doc.t) :
  params_id req = VObjectId n ->
  find (has_id n) (docs s) = Some d ->
  forall d1, assign_fields w req d s = (inl d1, s) ->
  match file req with
  | None => update w req s = (profile_updated d1, snd (Customer.save d1 s))
  | Some buffer =>
      match upload_stream w buffer with
      | Some url =>
          update w req s
          = (profile_updated (Doc.set_image url d1),
             snd (Customer.save (Doc.set_image url d1) s))
      | None => update w req s = (internal_error, s)
      end
  end.
Proof.
  intros Hid Hfind d1 Hassign.
  unfold update, assign_image. rewrite Hid.
  unfold try_catch, bind, Customer.findById. rewrite Hfind, Hassign.
  destruct (file req) as [buffer|].
  - unfold uploadToCloudinary. destruct (upload_stream w buffer); reflexivity.
  - reflexivity.
Qed.

(** C6. When the upload of the image fails during [update] on a stored
    customer, the answer is the 500 response and the store is exactly as
    before: none of the password, user name, e-mail or phone edits is
    written.  In the other cases the edits and the image reach the store
    in the one [save] of the one edited document. *)
Theorem update_upload_failure_saves_nothing
  (w : World) (req : Request) (s : Store) (n : nat) (d : Doc.t) :
  params_id req = VObjectId n ->
  find (has_id n) (docs s) = Some d ->
  (forall buffer, file req = Some buffer -> upload_stream w buffer = None ->
     update w req s = (internal_error, s)) /\
  (snd (update w req s) = s \/
   exists d', fst (update w req s) = profile_updated d' /\
              snd (update w req s) = snd (Customer.save d' s)).
Proof.
  intros Hid Hfind.
  destruct (assign_fields_run w req d s) as [d1 [Hassign _]].
  pose proof (update_run w req s n d Hid Hfind d1 Hassign) as Hrun.
  split.
  - intros buffer Hfile Hfail. rewrite Hfile, Hfail in Hrun. exact Hrun.
  - destruct (file req) as [buffer|].
    + destruct (upload_stream w buffer) as [url|].
      * right. exists (Doc.set_image url d1). rewrite Hrun. auto.
      * left. rewrite Hrun. reflexivity.
    + right. exists d1. rewrite Hrun. auto.
Qed.

Lemma update_upload_failure_saves_nothing_witness :
  update Sample.world_down
    (Sample.bearer (Sample.bob_token Sample.env_set) (VObjectId 0)
       [("password", "new-secret"); ("username", "alicia");
        ("email", "alicia@example.com"); ("phone", "999")]
       (Some [x00; x01]))
    Sample.two
  = (internal_error, Sample.two).
Proof.
  refine (proj1 (update_upload_failure_saves_nothing Sample.world_down
                   (Sample.bearer (Sample.bob_token Sample.env_set) (VObjectId 0)
                      [("password", "new-secret"); ("username", "alicia");
                       ("email", "alicia@example.com"); ("phone", "999")]
                      (Some [x00; x01]))
                   Sample.two 0 Sample.alice _ _)
                [x00; x01] _ _);
    reflexivity.
Defined.



(** ** The profile routes and the identity of the caller *)



Lemma deleteProfile_run (req : Request) (s : Store) (n : nat) (d : Doc.t) :
  params_id req = VObjectId n ->
  find (has_id n) (docs s) = Some d ->
  deleteProfile req s
  = (res_json [("message", VStr "Profile deleted successfully")],
     {| docs := filter (fun d' => negb (has_id n d')) (docs s);
        next_id := next_id s |}).
Proof.
  intros Hid Hfind.
  destruct (find_has_id n (docs s) d Hfind) as [Hdn _].
  unfold deleteProfile. rewrite Hid. unfold_monad. rewrite Hfind, Hdn.
  reflexivity.
Qed.



(** ** Register and Login: what a success looks like *)

Lemma truthy_js_or (a : option string) (d : string) :
  d <> "" -> truthy (Some (js_or a d)) = Some (js_or a d).
Proof.
  intros Hd. unfold js_or, truthy.
  destruct a as [x|].
  - destruct (x =? "") eqn:Hx.
    + apply String.eqb_neq in Hd. rewrite Hd. reflexivity.
    + rewrite Hx. reflexivity.
  - apply String.eqb_neq in Hd. rewrite Hd. reflexivity.
Qed.

(** [register] once the three fields are given and nobody has the e-mail
    address or the user name: the document is created, and the answer
    depends on whether the environment holds a signing key. *)
Lemma register_run (env : Env) (w : World) (req : Request) (s : Store)
                   (email username password : string) :
  truthy (body_field "email" (body req)) = Some email ->
  truthy (body_field "username" (body req)) = Some username ->
  truthy (body_field "password" (body req)) = Some password ->
  find (matches (Or [ByEmail email; ByUsername username])) (docs s) = None ->
  register env w req s
  = (match truthy (env_JWT_SECRET env) with
     | Some key => registered (new_customer w s email username password) key
     | None => res_status_json 500 [("message", VStr "Server error")]
     end,
     {| docs := docs s ++ [new_customer w s email username password];
        next_id := S (next_id s) |}).
Proof.
  intros He Hu Hp Hnone.
  unfold register. rewrite He, Hu, Hp. unfold_monad. rewrite Hnone.
  destruct (truthy (env_JWT_SECRET env)); reflexivity.
Qed.

(** Every run of [register] is one of four. *)
Lemma register_cases (env : Env) (w : World) (req : Request) (s : Store) :
  register env w req s
  = (res_status_json 400 [("message", VStr "All fields are required")], s)
  \/ register env w req s
     = (res_status_json 409 [("message", VStr "Customer already exists")], s)
  \/ exists email username password,
       truthy (body_field "email" (body req)) = Some email /\
       truthy (body_field "username" (body req)) = Some username /\
       truthy (body_field "password" (body req)) = Some password /\
       find (matches (Or [ByEmail email; ByUsername username])) (docs s) = None /\
       register env w req s
       = (match truthy (env_JWT_SECRET env) with
          | Some key => registered (new_customer w s email username password) key
          | None => res_status_json 500 [("message", VStr "Server error")]
          end,
          {| docs := docs s ++ [new_customer w s email username password];
             next_id := S (next_id s) |}).
Proof.
  destruct (truthy (body_field "email" (body req))) as [email|] eqn:He;
    [destruct (truthy (body_field "username" (body req))) as [username|] eqn:Hu;
     [destruct (truthy (body_field "password" (body req))) as [password|] eqn:Hp|]|];
    try (left; unfold register; rewrite ?He, ?Hu, ?Hp; reflexivity).
  destruct (find (matches (Or [ByEmail email; ByUsername username])) (docs s)) eqn:Hfind.
  - right; left. unfold register. rewrite He, Hu, Hp. unfold_monad.
    rewrite Hfind. reflexivity.
  - right; right. exists email, username, password.
    repeat (split; [reflexivity || assumption|]).
    apply register_run; assumption.
Qed.

Lemma register_created (env : Env) (w : World) (req : Request) (s : Store)
                       (r : Response) (s' : Store) :
  register env w req s = (r, s') -> status r = 201 ->
  exists email username password key,
    truthy (body_field "email" (body req)) = Some email /\
    truthy (body_field "username" (body req)) = Some username /\
    truthy (body_field "password" (body req)) = Some password /\
    truthy (env_JWT_SECRET env) = Some key /\
    r = registered (new_customer w s email username password) key /\
    s' = {| docs := docs s ++ [new_customer w s email username password];
            next_id := S (next_id s) |}.
Proof.
  intros Hrun Hok.
  destruct (register_cases env w req s)
    as [H | [H | (email & username & password & He & Hu & Hp & _ & H)]];
    rewrite H in Hrun; inversion Hrun; subst; clear Hrun; try discriminate.
  destruct (truthy (env_JWT_SECRET env)) as [key|] eqn:Hkey; [|discriminate].
  exists email, username, password, key.
  repeat split; reflexivity || assumption.
Qed.

Lemma login_succeeded (env : Env) (req : Request) (s : Store)
                      (r : Response) (s' : Store) :
  login env req s = (r, s') -> status r = 200 ->
  exists email password c,
    truthy (body_field "email" (body req)) = Some email /\
    truthy (body_field "password" (body req)) = Some password /\
    find (matches (ByEmail email)) (docs s) = Some c /\
    bcrypt.verifies password (Doc.password c) = true /\
    r = logged_in env c /\ s' = s.
Proof.
  unfold login. intros Hrun Hok.
  destruct (truthy (body_field "email" (body req))) as [email|];
    [destruct (truthy (body_field "password" (body req))) as [password|]|];
    unfold_monad;
    try (inversion Hrun; subst; discriminate).
  destruct (find (matches (ByEmail email)) (docs s)) as [c|] eqn:Hfind;
    [|inversion Hrun; subst; discriminate].
  destruct (bcrypt.verifies password (Doc.password c)) eqn:Hv; cbn [negb] in Hrun;
    [|inversion Hrun; subst; discriminate].
  pose proof (truthy_js_or (env_JWT_SECRET env) "your-secret-key") as Hkey.
  fold (JWT_SECRET env) in Hkey. rewrite Hkey in Hrun by discriminate.
  destruct (ms.defined (JWT_EXPIRES env));
    [|inversion Hrun; subst; discriminate].
  inversion Hrun; subst.
  exists email, password, c. repeat split; reflexivity || assumption.
Qed.



(** ** The password at rest *)

Lemma Forall_saved (P : Doc.t -> Prop) (l : list Doc.t) (d' : Doc.t) :
  Forall P l -> P d' ->
  Forall P (map (fun x => if has_id (Doc._id d') x then d' else x) l).
Proof.
  intros Hall Hd'. induction Hall as [|x l Hx Hl IH]; simpl.
  - constructor.
  - constructor; [destruct (has_id (Doc._id d') x); assumption | exact IH].
Qed.

(** The store after [update]: untouched, or one save of a document whose
    password is the one the four assignments left. *)
Lemma update_store_cases (w : World) (req : Request) (s : Store) :
  snd (update w req s) = s \/
  exists n d d1 d',
    params_id req = VObjectId n /\
    find (has_id n) (docs s) = Some d /\
    assign_fields w req d s = (inl d1, s) /\
    Doc.password d' = Doc.password d1 /\
    snd (update w req s) = snd (Customer.save d' s).
Proof.
  destruct (params_id req) eqn:Hid;
    try (left; unfold update; rewrite Hid; reflexivity).
  destruct (find (has_id n) (docs s)) as [d|] eqn:Hfind.
  - destruct (assign_fields_run w req d s) as [d1 [Hassign _]].
    pose proof (update_run w req s n d Hid Hfind d1 Hassign) as Hrun.
    destruct (file req) as [buffer|].
    + destruct (upload_stream w buffer) as [url|].
      * right. exists n, d, d1, (Doc.set_image url d1). rewrite Hrun. auto.
      * left. rewrite Hrun. reflexivity.
    + right. exists n, d, d1, d1. rewrite Hrun. auto.
  - left. unfold update. rewrite Hid. unfold_monad. rewrite Hfind. reflexivity.
Qed.

Lemma assign_fields_keeps_hash (w : World) (req : Request) (d d1 : Doc.t) (s : Store) :
  assign_fields w req d s = (inl d1, s) ->
  stored_as_hash d = true -> stored_as_hash d1 = true.
Proof.
  intros Hassign Hd.
  destruct (assign_fields_run w req d s) as [d1' (Hassign' & _ & _ & _ & Hpw & _)].
  rewrite Hassign in Hassign'. inversion Hassign'; subst d1'.
  unfold stored_as_hash in *. rewrite Hpw.
  destruct (truthy (body_field "password" (body req))); [reflexivity | exact Hd].
Qed.

(** C10. Both writers of the password path store [bcrypt.hash] of the
    given password with cost 10, never the password itself: the document a
    successful [register] creates, and the document a successful [update]
    saves when the body carries a password.  Hence a store whose passwords
    are all such hashes stays so under [register] and [update], whatever
    the request and the outcome. *)
Theorem password_at_rest_is_hash
  (env : Env) (w : World) (rreq : Request) (rs : Store)
  (ureq : Request) (us : Store) :
  Forall (fun d => stored_as_hash d = true) (docs rs) ->
  Forall (fun d => stored_as_hash d = true) (docs us) ->
  Forall (fun d => stored_as_hash d = true) (docs (snd (register env w rreq rs))) /\
  Forall (fun d => stored_as_hash d = true) (docs (snd (update w ureq us))) /\
  (status (fst (register env w rreq rs)) = 201 ->
   exists email username password,
     truthy (body_field "password" (body rreq)) = Some password /\
     docs (snd (register env w rreq rs))
     = (docs rs ++ [Doc.mk (next_id rs) email username
                           (PwBcrypt 10 (salt w) password) None None (now w)])%list /\
     PwBcrypt 10 (salt w) password <> PwPlain password) /\
  (forall n d password,
     params_id ureq = VObjectId n ->
     find (has_id n) (docs us) = Some d ->
     truthy (body_field "password" (body ureq)) = Some password ->
     status (fst (update w ureq us)) = 200 ->
     exists d',
       find (has_id n) (docs (snd (update w ureq us))) = Some d' /\
       Doc.password d' = PwBcrypt 10 (salt w) password /\
       Doc.password d' <> PwPlain password).
Proof.
  intros Hrs Hus.
  split; [|split; [|split]].
  - destruct (register_cases env w rreq rs)
      as [H | [H | (email & username & password & _ & _ & _ & _ & H)]];
      rewrite H; simpl; try assumption.
    apply Forall_app. split; [assumption|].
    constructor; [reflexivity | constructor].
  - destruct (update_store_cases w ureq us)
      as [H | (n & d & d1 & d' & _ & Hfind & Hassign & Hpw & H)];
      rewrite H; [assumption|].
    simpl. apply Forall_saved; [assumption|].
    unfold stored_as_hash. rewrite Hpw.
    apply (assign_fields_keeps_hash w ureq d d1 us Hassign).
    rewrite Forall_forall in Hus. apply Hus.
    apply (find_has_id n (docs us) d Hfind).
  - intros Hok.
    destruct (register_created env w rreq rs _ _
                (surjective_pairing (register env w rreq rs)) Hok)
      as (email & username & password & key & _ & _ & Hp & _ & _ & Hs').
    exists email, username, password. rewrite Hs'.
    split; [exact Hp|]. split; [reflexivity | discriminate].
  - intros n d password Hid Hfind Hp Hok.
    destruct (assign_fields_run w ureq d us)
      as [d1 (Hassign & H_id & _ & _ & Hpw & _)].
    rewrite Hp in Hpw.
    destruct (find_has_id n (docs us) d Hfind) as [Hdn _].
    pose proof (update_run w ureq us n d Hid Hfind d1 Hassign) as Hrun.
    destruct (file ureq) as [buffer|].
    + destruct (upload_stream w buffer) as [url|].
      * exists (Doc.set_image url d1). rewrite Hrun.
        unfold Customer.save. cbn [snd docs].
        split; [apply find_saved with (d := d); [assumption | simpl; congruence]|].
        simpl. rewrite Hpw. split; [reflexivity | discriminate].
      * rewrite Hrun in Hok. discriminate.
    + exists d1. rewrite Hrun. unfold Customer.save. cbn [snd docs].
      split; [apply find_saved with (d := d); [assumption | congruence]|].
      rewrite Hpw. split; [reflexivity | discriminate].
Qed.

Lemma password_at_rest_is_hash_witness :
  Forall (fun d => stored_as_hash d = true)
         (docs (snd (register Sample.env_set Sample.world_up
                       (Sample.request Sample.carol_form) Sample.two))) /\
  exists d',
    find (has_id 0)
      (docs (snd (update Sample.world_up
                    (Sample.bearer (Sample.bob_token Sample.env_set) (VObjectId 0)
                       [("password", "rabbit-hole")] (Some [x2a]))
                    Sample.two))) = Some d' /\
    Doc.password d' = PwBcrypt 10 "NaCl" "rabbit-hole".
Proof.
  assert (Htwo : Forall (fun d => stored_as_hash d = true) (docs Sample.two)).
  { repeat constructor. }
  destruct (password_at_rest_is_hash Sample.env_set Sample.world_up
              (Sample.request Sample.carol_form) Sample.two
              (Sample.bearer (Sample.bob_token Sample.env_set) (VObjectId 0)
                 [("password", "rabbit-hole")] (Some [x2a]))
              Sample.two Htwo Htwo)
    as (Hreg & _ & _ & Hupd).
  split; [exact Hreg|].
  destruct (Hupd 0 Sample.alice "rabbit-hole" eq_refl eq_refl eq_refl eq_refl)
    as [d' (Hfound & Hpw & _)].
  exists d'. split; [exact Hfound | exact Hpw].
Defined.

(** ** The token of Register against the profile route *)

(** The claims [register] signs have no [customer_id]. *)
Lemma register_claims_lack_customer_id (d : Doc.t) :
  prop (VObj (register_claims d)) "customer_id" = Some VUndefined.
Proof. reflexivity. Qed.

(** [getProfile] under an identity without [customer_id]: not found,
    whatever the store holds. *)
Lemma getProfile_without_customer_id (req : Request) (s : Store) :
  prop (customer req) "customer_id" = Some VUndefined ->
  getProfile req s = (res_status_json 404 [("message", VStr "Customer not found")], s).
Proof.
  intros Hprop. unfold getProfile. rewrite Hprop. reflexivity.
Qed.

(** No token issued by [register] gets a profile out of the gate of the
    spec and [getProfile]: the gate either refuses it or passes claims
    under which [getProfile] finds nobody. *)
Lemma register_token_never_resolves
  (env : Env) (w : World) (req : Request) (s : Store) (r : Response) (s' : Store)
  (token : jsval) (w' : World) (req' : Request) (s2 : Store) :
  register env w req s = (r, s') -> status r = 201 ->
  prop (json r) "token" = Some token ->
  authorization req' = Some token ->
  status (fst (Gate.authenticateToken env w' getProfile req' s2)) = 401 \/
  status (fst (Gate.authenticateToken env w' getProfile req' s2)) = 404.
Proof.
  intros Hreg Hok Htoken Hauth.
  destruct (register_created env w req s r s' Hreg Hok)
    as (email & username & password & key & _ & _ & _ & _ & Hr & _).
  subst r. simpl in Htoken. inversion Htoken; subst token; clear Htoken.
  unfold Gate.authenticateToken. rewrite Hauth. unfold Gate.verify.
  destruct (key =? JWT_SECRET env); [|left; reflexivity].
  destruct (expired w' _); [left; reflexivity|].
  right. rewrite getProfile_without_customer_id; reflexivity.
Qed.

(** C1 fails on the code.  Carol registers with a signing key configured
    and gets her token, whose claims are [id] and [email].  Under these
    claims as identity context [getProfile] reads [customer_id], finds it
    undefined and answers 404 although carol's document is in the store;
    so does the route [GET /profile] behind the gate of the spec, which
    accepts the token.  The token of [login], whose claims do carry
    [customer_id], resolves its customer on the same route. *)
Theorem register_token_profile_not_found :
  exists token get_profile s1,
    register Sample.env_set Sample.world_up (Sample.request Sample.carol_form) Sample.two
    = (registered (new_customer Sample.world_up Sample.two
                     "carol@example.com" "carol" "looking-glass") "s3cret", s1) /\
    token = VJwt (VObj [("id", VObjectId 2); ("email", VStr "carol@example.com")])
                 "s3cret" "7d" /\
    prop (registered (new_customer Sample.world_up Sample.two
                        "carol@example.com" "carol" "looking-glass") "s3cret").(json)
         "token" = Some token /\
    find (has_id 2) (docs s1)
    = Some (new_customer Sample.world_up Sample.two
              "carol@example.com" "carol" "looking-glass") /\
    getProfile
      (with_customer (VObj [("id", VObjectId 2); ("email", VStr "carol@example.com")])
                     (Sample.request []))
      s1
    = (res_status_json 404 [("message", VStr "Customer not found")], s1) /\
    app Sample.env_set Sample.world_up "GET" "/profile" = Some get_profile /\
    Gate.verify Sample.world_up (JWT_SECRET Sample.env_set) token
    = Verified (VObj [("id", VObjectId 2); ("email", VStr "carol@example.com")]) /\
    get_profile (Sample.bearer token VUndefined [] None) s1
    = (res_status_json 404 [("message", VStr "Customer not found")], s1) /\
    status (fst (get_profile
                   (Sample.bearer (Sample.bob_token Sample.env_set) VUndefined [] None)
                   s1)) = 200.
Proof.
  do 3 eexists.
  repeat (split; [reflexivity|]). reflexivity.
Qed.

(** ** The signing key *)

(** With a key in the environment both paths sign with it. *)
Lemma tokens_signed_with_env_secret
  (env : Env) (w : World) (key : string)
  (req : Request) (s : Store) (r : Response) (s' : Store)
  (lreq : Request) (ls : Store) (lr : Response) (ls' : Store) :
  truthy (env_JWT_SECRET env) = Some key ->
  register env w req s = (r, s') -> status r = 201 ->
  login env lreq ls = (lr, ls') -> status lr = 200 ->
  (exists claims ttl, prop (json r) "token" = Some (VJwt claims key ttl)) /\
  (exists claims ttl, prop (json lr) "token" = Some (VJwt claims key ttl)).
Proof.
  intros Hkey Hreg Hok Hlogin Hlok.
  destruct (register_created env w req s r s' Hreg Hok)
    as (email & username & password & key' & _ & _ & _ & Hkey' & Hr & _).
  destruct (login_succeeded env lreq ls lr ls' Hlogin Hlok)
    as (lemail & lpassword & c & _ & _ & _ & _ & Hlr & _).
  rewrite Hkey in Hkey'. inversion Hkey'; subst key'. subst r lr.
  split.
  - do 2 eexists. reflexivity.
  - do 2 eexists. simpl. unfold JWT_SECRET, js_or. rewrite Hkey. reflexivity.
Qed.

(** Without one, [register] never answers 201. *)
Lemma register_needs_env_secret (env : Env) (w : World) (req : Request) (s : Store) :
  truthy (env_JWT_SECRET env) = None ->
  status (fst (register env w req s)) <> 201.
Proof.
  intros Hkey.
  destruct (register_cases env w req s)
    as [H | [H | (email & username & password & _ & _ & _ & _ & H)]];
    rewrite H; try rewrite Hkey; simpl; discriminate.
Qed.

(** C2 fails on the code.  With no [JWT_SECRET] in the environment the
    constant [JWT_SECRET] is the placeholder and [login] signs with it, but
    [register] passes [process.env.JWT_SECRET] itself to [jwt.sign], which
    throws: the answer is 500 "Server error", after the customer has been
    created. *)
Theorem register_without_secret_fails :
  JWT_SECRET Sample.env_unset = "your-secret-key" /\
  register Sample.env_unset Sample.world_up (Sample.request Sample.carol_form) Sample.empty
  = (res_status_json 500 [("message", VStr "Server error")],
     {| docs := [new_customer Sample.world_up Sample.empty
                   "carol@example.com" "carol" "looking-glass"];
        next_id := 1 |}) /\
  login Sample.env_unset
    (Sample.request [("email", "bob@example.com"); ("password", "builder")]) Sample.two
  = (res_json [("message", VStr "Login successful");
               ("customer", VObj (login_summary Sample.bob));
               ("token", VJwt (VObj (login_summary Sample.bob)) "your-secret-key" "7d")],
     Sample.two).
Proof.
  split; [reflexivity|]. split; reflexivity.
Qed.

(** ** ListAll on sample data *)

Example getAll_admin_lists_hashes :
  getAll (with_user (VObj [("is_admin", VBool true)]) (Sample.request [])) Sample.two
  = (res_json
       [("success", VBool true);
        ("list",
         VArr [VObj [("_id", VObjectId 0); ("email", VStr "alice@example.com");
                     ("username", VStr "alice");
                     ("password", VBcrypt 10 "NaCl" "wonderland");
                     ("phone", VStr "012345"); ("image", VNull); ("createdAt", VDate 5)];
               VObj [("_id", VObjectId 1); ("email", VStr "bob@example.com");
                     ("username", VStr "bob");
                     ("password", VBcrypt 10 "NaCl" "builder");
                     ("phone", VUndefined);
                     ("image", VStr "https://img.example/bob.png");
                     ("createdAt", VDate 6)]])],
     Sample.two).
Proof. reflexivity. Qed.

Example getAll_plain_customer_forbidden :
  getAll (with_user (VObj (login_summary Sample.bob)) (Sample.request [])) Sample.two
  = (res_status_json 403 [("error", VStr "Access denied")], Sample.two).
Proof. reflexivity. Qed.

Example getAll_without_identity_forbidden :
  getAll (Sample.request []) Sample.two
  = (res_status_json 403 [("error", VStr "Access denied")], Sample.two).
Proof. reflexivity. Qed.

(** ** The routes on sample data *)

Example profile_route_with_login_token :
  exists get_profile,
    app Sample.env_set Sample.world_up "GET" "/profile" = Some get_profile /\
    get_profile (Sample.bearer (Sample.bob_token Sample.env_set) VUndefined [] None)
                Sample.two
    = (res_json
         [("customer",
           VObj [("customer_id", VObjectId 1); ("email", VStr "bob@example.com");
                 ("username", VStr "bob"); ("phone", VUndefined);
                 ("image", VStr "https://img.example/bob.png");
                 ("createdAt", VDate 6)])],
       Sample.two).
Proof. eexists. split; reflexivity. Qed.

Example customer_route_refuses_plain_customer :
  exists list_all,
    app Sample.env_set Sample.world_up "GET" "/customer" = Some list_all /\
    status (fst (list_all
                   (Sample.bearer (Sample.bob_token Sample.env_set) VUndefined [] None)
                   Sample.two)) = 403.
Proof. eexists. split; reflexivity. Qed.

Example delete_twice_not_found :
  exists del s1,
    app Sample.env_set Sample.world_up "DELETE" "/profile/:id" = Some del /\
    del (Sample.bearer (Sample.bob_token Sample.env_set) (VObjectId 1) [] None) Sample.two
    = (res_json [("message", VStr "Profile deleted successfully")], s1) /\
    del (Sample.bearer (Sample.bob_token Sample.env_set) (VObjectId 1) [] None) s1
    = (res_status_json 404 [("message", VStr "Customer not found")], s1).
Proof. do 2 eexists. split; [reflexivity|]. split; reflexivity. Qed.

(** * Further properties of the handlers *)

(** ** Lookups in the collection *)

Lemma find_none_all (p : Doc.t -> bool) (l : list Doc.t) :
  (forall x, In x l -> p x = false) -> find p l = None.
Proof.
  intros Hall. induction l as [|x l IH]; [reflexivity|].
  simpl. rewrite (Hall x (or_introl eq_refl)).
  apply IH. intros y Hy. apply Hall. right. exact Hy.
Qed.

Lemma find_snoc (p : Doc.t -> bool) (l : list Doc.t) (x : Doc.t) :
  find p (l ++ [x])
  = match find p l with
    | Some y => Some y
    | None => if p x then Some x else None
    end.
Proof.
  induction l as [|y l IH]; simpl.
  - reflexivity.
  - destruct (p y); [reflexivity | exact IH].
Qed.

Lemma find_by_id_unique (l : list Doc.t) (c : Doc.t) :
  NoDup (map Doc._id l) -> In c l -> find (has_id (Doc._id c)) l = Some c.
Proof.
  induction l as [|x l IH]; intros Hnd Hin; [contradiction|].
  simpl in *. inversion Hnd as [|? ? Hnotin Hnd']; subst.
  destruct Hin as [Heq | Hin].
  - subst x. unfold has_id. rewrite Nat.eqb_refl. reflexivity.
  - destruct (has_id (Doc._id c) x) eqn:Hx.
    + unfold has_id in Hx. apply Nat.eqb_eq in Hx.
      exfalso. apply Hnotin. rewrite Hx. apply in_map. exact Hin.
    + apply IH; assumption.
Qed.

Lemma NoDup_snoc (A : Type) (l : list A) (x : A) :
  NoDup l -> ~ In x l -> NoDup (l ++ [x]).
Proof.
  intros Hnd Hx. induction Hnd as [|y l Hy Hnd IH]; simpl.
  - constructor; [intros [] | constructor].
  - constructor.
    + rewrite in_app_iff. intros [H | [H | []]]; [contradiction|].
      apply Hx. left. symmetry. exact H.
    + apply IH. intros H. apply Hx. right. exact H.
Qed.

(** Nobody has the e-mail address, nobody has the user name: what the
    combined query of [register] finding nothing says about each. *)
Lemma nobody_has_email (email username : string) (l : list Doc.t) :
  find (matches (Or [ByEmail email; ByUsername username])) l = None ->
  find (matches (ByEmail email)) l = None /\
  ~ In email (map Doc.email l) /\ ~ In username (map Doc.username l).
Proof.
  intros Hnone. rewrite find_email_or_username in Hnone.
  split; [|split].
  - apply find_none_all. intros x Hx. simpl. apply String.eqb_neq.
    apply (Hnone x Hx).
  - intros Hin. apply in_map_iff in Hin. destruct Hin as [x [Hex Hx]].
    destruct (Hnone x Hx) as [H _]. contradiction.
  - intros Hin. apply in_map_iff in Hin. destruct Hin as [x [Hux Hx]].
    destruct (Hnone x Hx) as [_ H]. contradiction.
Qed.

(** ** Validation of the bodies *)

(** X1. When e-mail, user name or password is missing from the body or is
    the empty string, [register] answers 400 "All fields are required";
    nothing is looked up and nothing is stored. *)
Theorem register_missing_field
  (env : Env) (w : World) (req : Request) (s : Store) :
  truthy (body_field "email" (body req)) = None \/
  truthy (body_field "username" (body req)) = None \/
  truthy (body_field "password" (body req)) = None ->
  register env w req s
  = (res_status_json 400 [("message", VStr "All fields are required")], s).
Proof.
  intros Hmissing. unfold register.
  destruct (truthy (body_field "email" (body req))) as [email|];
    destruct (truthy (body_field "username" (body req))) as [username|];
    destruct (truthy (body_field "password" (body req))) as [password|];
    try reflexivity.
  destruct Hmissing as [H | [H | H]]; discriminate.
Qed.

Lemma register_missing_field_witness :
  register Sample.env_set Sample.world_up
    (Sample.request [("email", "dave@example.com"); ("username", "");
                     ("password", "pw")])
    Sample.two
  = (res_status_json 400 [("message", VStr "All fields are required")], Sample.two).
Proof.
  apply (register_missing_field Sample.env_set Sample.world_up
           (Sample.request [("email", "dave@example.com"); ("username", "");
                            ("password", "pw")])
           Sample.two).
  right. left. reflexivity.
Defined.

(** X2. When e-mail or password is missing from the body or is the empty
    string, [login] answers 400 "Email and password required" without
    looking anybody up, so the answer is the same whether or not the
    e-mail address is known. *)
Theorem login_missing_field (env : Env) (req : Request) (s : Store) :
  truthy (body_field "email" (body req)) = None \/
  truthy (body_field "password" (body req)) = None ->
  login env req s
  = (res_status_json 400 [("message", VStr "Email and password required")], s).
Proof.
  intros Hmissing. unfold login.
  destruct (truthy (body_field "email" (body req))) as [email|];
    destruct (truthy (body_field "password" (body req))) as [password|];
    try reflexivity.
  destruct Hmissing as [H | H]; discriminate.
Qed.

Lemma login_missing_field_witness :
  login Sample.env_set (Sample.request [("email", "bob@example.com")]) Sample.two
  = (res_status_json 400 [("message", VStr "Email and password required")],
     Sample.two).
Proof.
  apply (login_missing_field Sample.env_set
           (Sample.request [("email", "bob@example.com")]) Sample.two).
  right. reflexivity.
Defined.

(** ** Login *)

Lemma JWT_SECRET_not_empty (env : Env) : truthy (Some (JWT_SECRET env)) = Some (JWT_SECRET env).
Proof. unfold JWT_SECRET. apply truthy_js_or. discriminate. Qed.

(** [login] once both fields are given, the e-mail address is found and
    the password verifies: what is left is the signing, which succeeds
    exactly when [JWT_EXPIRES] is a timespan. *)
Lemma login_run (env : Env) (req : Request) (s : Store)
                (email password : string) (c : Doc.t) :
  truthy (body_field "email" (body req)) = Some email ->
  truthy (body_field "password" (body req)) = Some password ->
  find (matches (ByEmail email)) (docs s) = Some c ->
  bcrypt.verifies password (Doc.password c) = true ->
  login env req s
  = (if ms.defined (JWT_EXPIRES env) then logged_in env c else internal_error, s).
Proof.
  intros He Hp Hfind Hv. unfold login. rewrite He, Hp.
  unfold try_catch, bind, Customer.findOne, bcrypt.compare, ret.
  rewrite Hfind, Hv. cbn [negb]. unfold jwt.sign.
  rewrite JWT_SECRET_not_empty.
  destruct (ms.defined (JWT_EXPIRES env)); reflexivity.
Qed.



(** ** Register, then Login *)

(** X3. Registering and then logging in with the same e-mail address and
    password finds the customer just created and accepts the password:
    after [register] answered 201, [login] on the resulting store answers
    200 for that customer, with a token whose claims carry the customer's
    identifier as [customer_id], when [JWT_EXPIRES] is a timespan (as the
    default "7d" is); when it is not, [login] answers 500, although
    [register], which signs for the literal "7d", succeeded. *)
Theorem register_then_login
  (env : Env) (w : World) (req : Request) (s : Store) (r : Response) (s' : Store)
  (lreq : Request) :
  register env w req s = (r, s') -> status r = 201 ->
  truthy (body_field "email" (body lreq)) = truthy (body_field "email" (body req)) ->
  truthy (body_field "password" (body lreq))
  = truthy (body_field "password" (body req)) ->
  exists c,
    In c (docs s') /\
    Doc._id c = next_id s /\
    truthy (body_field "email" (body req)) = Some (Doc.email c) /\
    login env lreq s'
    = (if ms.defined (JWT_EXPIRES env) then logged_in env c else internal_error, s') /\
    prop (VObj (login_summary c)) "customer_id" = Some (VObjectId (next_id s)) /\
    ms.defined "7d" = true.
Proof.
  intros Hreg Hok Hle Hlp.
  destruct (register_cases env w req s)
    as [H | [H | (email & username & password & He & Hu & Hp & Hnone & H)]];
    rewrite H in Hreg; inversion Hreg; subst r s'; clear Hreg; try discriminate.
  exists (new_customer w s email username password).
  split; [simpl; apply in_or_app; right; left; reflexivity|].
  split; [reflexivity|]. split; [exact He|].
  split; [|split; reflexivity].
  apply (login_run env lreq _ email password).
  - rewrite Hle. exact He.
  - rewrite Hlp. exact Hp.
  - cbn [docs]. rewrite find_snoc.
    destruct (nobody_has_email email username (docs s) Hnone) as [Hnobody _].
    rewrite Hnobody. simpl. rewrite String.eqb_refl. reflexivity.
  - simpl. apply String.eqb_refl.
Qed.

Lemma register_then_login_witness :
  exists c,
    Doc._id c = 2 /\
    login Sample.env_set
      (Sample.request [("email", "carol@example.com"); ("password", "looking-glass")])
      (snd (register Sample.env_set Sample.world_up
              (Sample.request Sample.carol_form) Sample.two))
    = (logged_in Sample.env_set c,
       snd (register Sample.env_set Sample.world_up
              (Sample.request Sample.carol_form) Sample.two)).
Proof.
  destruct (register_then_login Sample.env_set Sample.world_up
              (Sample.request Sample.carol_form) Sample.two
              (fst (register Sample.env_set Sample.world_up
                      (Sample.request Sample.carol_form) Sample.two))
              (snd (register Sample.env_set Sample.world_up
                      (Sample.request Sample.carol_form) Sample.two))
              (Sample.request [("email", "carol@example.com");
                               ("password", "looking-glass")])
              eq_refl eq_refl eq_refl eq_refl)
    as [c (_ & Hid & _ & Hlogin & _)].
  exists c. split; [exact Hid | exact Hlogin].
Defined.

(** X4. A registration that fails for lack of a signing key still takes
    the e-mail address and the user name: with no [JWT_SECRET] in the
    environment, a [register] that passes validation and the duplicate
    check answers 500 and stores the customer; the same request sent again
    is answered 409.  [login] with that e-mail address and password finds
    the stored customer and accepts the password: it answers 200 when
    [JWT_EXPIRES] is a timespan and 500 when it is not. *)
Theorem register_without_secret_blocks_retry
  (env : Env) (w w' : World) (req : Request) (s : Store)
  (email username password : string) :
  truthy (env_JWT_SECRET env) = None ->
  truthy (body_field "email" (body req)) = Some email ->
  truthy (body_field "username" (body req)) = Some username ->
  truthy (body_field "password" (body req)) = Some password ->
  find (matches (Or [ByEmail email; ByUsername username])) (docs s) = None ->
  exists s1,
    register env w req s
    = (res_status_json 500 [("message", VStr "Server error")], s1) /\
    docs s1 = (docs s ++ [new_customer w s email username password])%list /\
    register env w' req s1
    = (res_status_json 409 [("message", VStr "Customer already exists")], s1) /\
    login env req s1
    = (if ms.defined (JWT_EXPIRES env)
       then logged_in env (new_customer w s email username password)
       else internal_error, s1).
Proof.
  intros Hkey He Hu Hp Hnone.
  eexists. split; [|split; [|split]].
  - rewrite (register_run env w req s email username password He Hu Hp Hnone).
    rewrite Hkey. reflexivity.
  - reflexivity.
  - unfold register. rewrite He, Hu, Hp. unfold_monad. cbn [docs].
    rewrite find_snoc, Hnone. simpl. rewrite String.eqb_refl. reflexivity.
  - destruct (nobody_has_email email username (docs s) Hnone) as [Hnobody _].
    apply (login_run env req _ email password); [exact He | exact Hp | |].
    + cbn [docs]. rewrite find_snoc, Hnobody. simpl.
      rewrite String.eqb_refl. reflexivity.
    + simpl. apply String.eqb_refl.
Qed.

Lemma register_without_secret_blocks_retry_witness :
  exists s1,
    register Sample.env_unset Sample.world_up (Sample.request Sample.carol_form) Sample.two
    = (res_status_json 500 [("message", VStr "Server error")], s1) /\
    register Sample.env_unset Sample.world_down (Sample.request Sample.carol_form) s1
    = (res_status_json 409 [("message", VStr "Customer already exists")], s1) /\
    status (fst (login Sample.env_unset (Sample.request Sample.carol_form) s1)) = 200.
Proof.
  destruct (register_without_secret_blocks_retry Sample.env_unset
              Sample.world_up Sample.world_down
              (Sample.request Sample.carol_form) Sample.two
              "carol@example.com" "carol" "looking-glass"
              eq_refl eq_refl eq_refl eq_refl eq_refl)
    as [s1 (Hfirst & _ & Hsecond & Hlogin)].
  exists s1. split; [exact Hfirst|]. split; [exact Hsecond|].
  rewrite Hlogin. reflexivity.
Defined.

(** ** What Register keeps *)

(** X13. [register] never changes or removes a stored customer: the store
    afterwards is the store before, or the store before with one document
    appended under the next identifier.  After the answers 400 and 409 it
    is the store before. *)
Theorem register_appends_at_most_one
  (env : Env) (w : World) (req : Request) (s : Store) :
  (snd (register env w req s) = s \/
   exists d,
     Doc._id d = next_id s /\
     docs (snd (register env w req s)) = (docs s ++ [d])%list /\
     next_id (snd (register env w req s)) = S (next_id s)) /\
  (status (fst (register env w req s)) = 400 \/
   status (fst (register env w req s)) = 409 ->
   snd (register env w req s) = s).
Proof.
  destruct (register_cases env w req s)
    as [H | [H | (email & username & password & _ & _ & _ & _ & H)]];
    rewrite H; simpl.
  - split; [left; reflexivity | reflexivity].
  - split; [left; reflexivity | reflexivity].
  - split.
    + right. exists (new_customer w s email username password). auto.
    + destruct (truthy (env_JWT_SECRET env)); simpl; intros [Hs | Hs]; discriminate.
Qed.

(** X9. [register] keeps e-mail addresses and user names unique: if no two
    stored customers share an e-mail address and no two share a user name,
    the same holds after [register], whatever the request and the
    answer. *)
Theorem register_keeps_unique
  (env : Env) (w : World) (req : Request) (s : Store) :
  NoDup (map Doc.email (docs s)) ->
  NoDup (map Doc.username (docs s)) ->
  NoDup (map Doc.email (docs (snd (register env w req s)))) /\
  NoDup (map Doc.username (docs (snd (register env w req s)))).
Proof.
  intros Hemails Husers.
  destruct (register_cases env w req s)
    as [H | [H | (email & username & password & _ & _ & _ & Hnone & H)]];
    rewrite H; simpl; try (split; assumption).
  destruct (nobody_has_email email username (docs s) Hnone) as (_ & Hne & Hnu).
  rewrite !map_app. simpl.
  split; apply NoDup_snoc; assumption.
Qed.

Lemma register_keeps_unique_witness :
  NoDup (map Doc.email
           (docs (snd (register Sample.env_set Sample.world_up
                         (Sample.request Sample.carol_form) Sample.two)))) /\
  NoDup (map Doc.username
           (docs (snd (register Sample.env_set Sample.world_up
                         (Sample.request Sample.carol_form) Sample.two)))).
Proof.
  apply (register_keeps_unique Sample.env_set Sample.world_up
           (Sample.request Sample.carol_form) Sample.two).
  - simpl. constructor.
    + simpl. intros [H | []]. discriminate.
    + constructor; [intros [] | constructor].
  - simpl. constructor.
    + simpl. intros [H | []]. discriminate.
    + constructor; [intros [] | constructor].
Defined.

(** ** GetProfile *)

Lemma getProfile_found (req : Request) (s : Store) (n : nat) (d : Doc.t) :
  prop (customer req) "customer_id" = Some (VObjectId n) ->
  find (has_id n) (docs s) = Some d ->
  getProfile req s = (profile_of d, s).
Proof.
  intros Hprop Hfind. unfold getProfile. rewrite Hprop. unfold_monad.
  rewrite Hfind. reflexivity.
Qed.

(** X5. The token of [login] leads back to the customer who logged in: in
    a store whose identifiers are unique, after [login] answered 200 the
    claims of its token, taken as the identity context, make [getProfile]
    answer 200 with the identifier, e-mail address, user name, phone, image
    and creation date of the customer [login] matched, and with no
    [password] path. *)
Theorem login_token_resolves_profile
  (env : Env) (req : Request) (s : Store) (r : Response) (s' : Store) :
  NoDup (map Doc._id (docs s)) ->
  login env req s = (r, s') -> status r = 200 ->
  exists c claims key ttl,
    prop (json r) "token" = Some (VJwt claims key ttl) /\
    truthy (body_field "email" (body req)) = Some (Doc.email c) /\
    In c (docs s) /\
    (forall req', getProfile (with_customer claims req') s' = (profile_of c, s')) /\
    prop (opt_prop (json (profile_of c)) "customer") "password" = Some VUndefined.
Proof.
  intros Hnd Hlogin Hok.
  destruct (login_succeeded env req s r s' Hlogin Hok)
    as (email & password & c & He & _ & Hfind & _ & Hr & Hs').
  subst r s'.
  destruct (find_some _ _ Hfind) as [Hin Hmatch].
  simpl in Hmatch. apply String.eqb_eq in Hmatch.
  exists c, (VObj (login_summary c)), (JWT_SECRET env), (JWT_EXPIRES env).
  split; [reflexivity|].
  split; [rewrite Hmatch; exact He|].
  split; [exact Hin|].
  split; [|reflexivity].
  intros req'. apply (getProfile_found _ s (Doc._id c) c); [reflexivity|].
  apply find_by_id_unique; assumption.
Qed.

Lemma login_token_resolves_profile_witness :
  exists claims key ttl,
    prop (json (fst (login Sample.env_set
                       (Sample.request [("email", "bob@example.com");
                                        ("password", "builder")])
                       Sample.two))) "token" = Some (VJwt claims key ttl) /\
    getProfile (with_customer claims (Sample.request [])) Sample.two
    = (profile_of Sample.bob, Sample.two).
Proof.
  assert (Hnd : NoDup (map Doc._id (docs Sample.two))).
  { simpl. constructor.
    - simpl. intros [H | []]. discriminate.
    - constructor; [intros [] | constructor]. }
  destruct (login_token_resolves_profile Sample.env_set
              (Sample.request [("email", "bob@example.com"); ("password", "builder")])
              Sample.two
              (fst (login Sample.env_set
                      (Sample.request [("email", "bob@example.com");
                                       ("password", "builder")])
                      Sample.two))
              Sample.two Hnd eq_refl eq_refl)
    as (c & claims & key & ttl & Htoken & _ & _ & Hprofile & _).
  exists claims, key, ttl. split; [exact Htoken|].
  simpl in Htoken. inversion Htoken; subst claims.
  reflexivity.
Defined.

(** X6. [login], [getProfile] and [getAll] only read: whatever the request
    and whatever they answer, the store afterwards is the store before. *)
Theorem reading_handlers_keep_store (env : Env) (req : Request) (s : Store) :
  snd (login env req s) = s /\
  snd (getProfile req s) = s /\
  snd (getAll req s) = s.
Proof.
  split; [|split].
  - unfold login.
    destruct (truthy (body_field "email" (body req))) as [email|];
      [destruct (truthy (body_field "password" (body req))) as [password|]|];
      try reflexivity.
    unfold try_catch, bind, Customer.findOne, bcrypt.compare, ret, reply.
    destruct (find (matches (ByEmail email)) (docs s)) as [c|]; [|reflexivity].
    destruct (bcrypt.verifies password (Doc.password c)); [|reflexivity].
    cbn [negb]. unfold jwt.sign. rewrite JWT_SECRET_not_empty.
    destruct (ms.defined (JWT_EXPIRES env)); reflexivity.
  - unfold getProfile.
    destruct (prop (customer req) "customer_id") as [v|]; [|reflexivity].
    destruct v; try reflexivity.
    unfold_monad. destruct (find (has_id n) (docs s)); reflexivity.
  - unfold getAll. unfold_monad.
    destruct (truthy_val (opt_prop (user req) "is_admin")); reflexivity.
Qed.

(** ** Documents that are not there *)

Lemma update_not_found (w : World) (req : Request) (s : Store) (n : nat) :
  params_id req = VObjectId n -> find (has_id n) (docs s) = None ->
  update w req s = (not_found, s).
Proof.
  intros Hid Hfind. unfold update. rewrite Hid. unfold_monad.
  rewrite Hfind. reflexivity.
Qed.

Lemma deleteProfile_not_found (req : Request) (s : Store) (n : nat) :
  params_id req = VObjectId n -> find (has_id n) (docs s) = None ->
  deleteProfile req s = (not_found, s).
Proof.
  intros Hid Hfind. unfold deleteProfile. rewrite Hid. unfold_monad.
  rewrite Hfind. reflexivity.
Qed.

(** X8. For an identifier no stored customer has, [update], [deleteProfile]
    and [getProfile] all answer 404 "Customer not found" and leave the
    store as it is; [update] does so before hashing or uploading anything,
    so the answer does not depend on the body, the file or the image
    host. *)
Theorem missing_document_not_found
  (w : World) (req preq : Request) (s : Store) (n : nat) :
  params_id req = VObjectId n ->
  prop (customer preq) "customer_id" = Some (VObjectId n) ->
  find (has_id n) (docs s) = None ->
  update w req s = (not_found, s) /\
  deleteProfile req s = (not_found, s) /\
  getProfile preq s = (not_found, s).
Proof.
  intros Hid Hprop Hfind.
  split; [apply (update_not_found w req s n Hid Hfind)|].
  split; [apply (deleteProfile_not_found req s n Hid Hfind)|].
  unfold getProfile. rewrite Hprop. unfold_monad. rewrite Hfind. reflexivity.
Qed.

Lemma missing_document_not_found_witness :
  update Sample.world_down
    (Sample.bearer (Sample.bob_token Sample.env_set) (VObjectId 9)
       [("email", "x@example.com")] (Some [x00]))
    Sample.two
  = (not_found, Sample.two).
Proof.
  apply (missing_document_not_found Sample.world_down
           (Sample.bearer (Sample.bob_token Sample.env_set) (VObjectId 9)
              [("email", "x@example.com")] (Some [x00]))
           (with_customer (VObj [("customer_id", VObjectId 9)]) (Sample.request []))
           Sample.two 9);
    reflexivity.
Defined.

(** X7. Deleting is final and repeating it is harmless: after
    [deleteProfile] removed the customer named by the path, the same
    request again is answered 404 and changes nothing, and so is an
    [update] on that path; [getProfile] for that identifier answers 404
    too. *)
Theorem delete_then_not_found
  (w : World) (req ureq preq : Request) (s : Store) (n : nat) (d : Doc.t) :
  params_id req = VObjectId n ->
  params_id ureq = VObjectId n ->
  prop (customer preq) "customer_id" = Some (VObjectId n) ->
  find (has_id n) (docs s) = Some d ->
  status (fst (deleteProfile req s)) = 200 /\
  deleteProfile req (snd (deleteProfile req s))
  = (not_found, snd (deleteProfile req s)) /\
  update w ureq (snd (deleteProfile req s)) = (not_found, snd (deleteProfile req s)) /\
  getProfile preq (snd (deleteProfile req s)) = (not_found, snd (deleteProfile req s)).
Proof.
  intros Hid Huid Hprop Hfind.
  rewrite (deleteProfile_run req s n d Hid Hfind). cbn [fst snd].
  split; [reflexivity|].
  split; [apply (deleteProfile_not_found req _ n Hid); apply find_deleted|].
  split; [apply (update_not_found w ureq _ n Huid); apply find_deleted|].
  unfold getProfile. rewrite Hprop. unfold_monad. cbn [docs].
  rewrite find_deleted. reflexivity.
Qed.

Lemma delete_then_not_found_witness :
  deleteProfile
    (Sample.bearer (Sample.bob_token Sample.env_set) (VObjectId 1) [] None)
    (snd (deleteProfile
            (Sample.bearer (Sample.bob_token Sample.env_set) (VObjectId 1) [] None)
            Sample.two))
  = (not_found,
     snd (deleteProfile
            (Sample.bearer (Sample.bob_token Sample.env_set) (VObjectId 1) [] None)
            Sample.two)).
Proof.
  apply (delete_then_not_found Sample.world_up
           (Sample.bearer (Sample.bob_token Sample.env_set) (VObjectId 1) [] None)
           (Sample.bearer (Sample.bob_token Sample.env_set) (VObjectId 1) [] None)
           (with_customer (VObj (login_summary Sample.bob)) (Sample.request []))
           Sample.two 1 Sample.bob);
    reflexivity.
Defined.

(** ** What a successful update leaves behind *)

(** A successful [update] on a stored customer: the document the four
    assignments produced, with the uploaded image if a file came along, is
    the one saved, reported and found under the path identifier
    afterwards. *)
Lemma update_saved (w : World) (req : Request) (s : Store) (n : nat) (d : Doc.t) :
  params_id req = VObjectId n ->
  find (has_id n) (docs s) = Some d ->
  status (fst (update w req s)) = 200 ->
  exists d1 d',
    assign_fields w req d s = (inl d1, s) /\
    update w req s = (profile_updated d', snd (Customer.save d' s)) /\
    find (has_id n) (docs (snd (update w req s))) = Some d' /\
    Doc._id d' = n /\
    Doc.email d' = Doc.email d1 /\
    Doc.password d' = Doc.password d1 /\
    (file req = None -> d' = d1) /\
    (forall buffer, file req = Some buffer ->
       exists url, upload_stream w buffer = Some url /\ d' = Doc.set_image url d1).
Proof.
  intros Hid Hfind Hok.
  destruct (assign_fields_run w req d s) as [d1 (Hassign & H_id & _)].
  destruct (find_has_id n (docs s) d Hfind) as [Hdn _].
  pose proof (update_run w req s n d Hid Hfind d1 Hassign) as Hrun.
  exists d1.
  destruct (file req) as [buffer|].
  - destruct (upload_stream w buffer) as [url|] eqn:Hup.
    + exists (Doc.set_image url d1). rewrite Hrun.
      unfold Customer.save. cbn [fst snd docs].
      split; [exact Hassign|]. split; [reflexivity|].
      split; [apply find_saved with (d := d); [assumption | simpl; congruence]|].
      split; [simpl; congruence|].
      split; [reflexivity|]. split; [reflexivity|].
      split; [intros; discriminate|].
      intros b Hb. inversion Hb; subst b. exists url. split; [exact Hup | reflexivity].
    + rewrite Hrun in Hok. discriminate.
  - exists d1. rewrite Hrun. unfold Customer.save. cbn [fst snd docs].
    split; [exact Hassign|]. split; [reflexivity|].
    split; [apply find_saved with (d := d); [assumption | congruence]|].
    split; [congruence|].
    split; [reflexivity|]. split; [reflexivity|].
    split; [reflexivity|].
    intros b Hb. discriminate.
Qed.



(** X10. Reading after writing: after [update] answered 200 for the
    customer named by the path, [getProfile] for that identifier answers
    200 with the document [update] reported, so e-mail address, user name,
    phone and image of the two answers agree. *)
Theorem update_then_getProfile
  (w : World) (req preq : Request) (s : Store) (n : nat) (d : Doc.t) :
  params_id req = VObjectId n ->
  find (has_id n) (docs s) = Some d ->
  status (fst (update w req s)) = 200 ->
  prop (customer preq) "customer_id" = Some (VObjectId n) ->
  exists d',
    fst (update w req s) = profile_updated d' /\
    getProfile preq (snd (update w req s)) = (profile_of d', snd (update w req s)) /\
    (forall k, In k ["customer_id"; "email"; "username"; "phone"; "image"] ->
       prop (opt_prop (json (profile_of d')) "customer") k
       = prop (opt_prop (json (profile_updated d')) "customer") k).
Proof.
  intros Hid Hfind Hok Hprop.
  destruct (update_saved w req s n d Hid Hfind Hok)
    as (d1 & d' & _ & Hupd & Hfound & H_id & _).
  exists d'. split; [rewrite Hupd; reflexivity|].
  split; [apply (getProfile_found preq _ n d' Hprop Hfound)|].
  intros k Hk. simpl in Hk.
  destruct Hk as [H | [H | [H | [H | [H | []]]]]]; subst k; reflexivity.
Qed.

Lemma update_then_getProfile_witness :
  exists d',
    getProfile (with_customer (VObj (login_summary Sample.bob)) (Sample.request []))
      (snd (update Sample.world_down
              (Sample.bearer (Sample.bob_token Sample.env_set) (VObjectId 1)
                 [("phone", "555"); ("username", "robert")] None)
              Sample.two))
    = (profile_of d',
       snd (update Sample.world_down
              (Sample.bearer (Sample.bob_token Sample.env_set) (VObjectId 1)
                 [("phone", "555"); ("username", "robert")] None)
              Sample.two)).
Proof.
  destruct (update_then_getProfile Sample.world_down
              (Sample.bearer (Sample.bob_token Sample.env_set) (VObjectId 1)
                 [("phone", "555"); ("username", "robert")] None)
              (with_customer (VObj (login_summary Sample.bob)) (Sample.request []))
              Sample.two 1 Sample.bob eq_refl eq_refl eq_refl eq_refl)
    as [d' (_ & Hprofile & _)].
  exists d'. exact Hprofile.
Defined.

(** ** Changing the password *)




(** The first 72 bytes decide: a password that differs from the stored one
    only after them is accepted. *)
Example login_accepts_same_first_72_bytes :
  status (fst (login Sample.env_set
                 (Sample.request
                    [("email", "long@example.com");
                     ("password",
                      "0123456789012345678901234567890123456789012345678901234567890123456789AB-other")])
                 {| docs := [Doc.mk 0 "long@example.com" "long"
                               (PwBcrypt 10 "NaCl"
                                  "0123456789012345678901234567890123456789012345678901234567890123456789AB-stored")
                               None None 1];
                    next_id := 1 |})) = 200.
Proof. reflexivity. Qed.

Example login_with_unreadable_ttl_fails :
  login {| env_JWT_SECRET := Some "s3cret"; env_JWT_EXPIRES := Some "abc" |}
    (Sample.request [("email", "bob@example.com"); ("password", "builder")]) Sample.two
  = (internal_error, Sample.two).
Proof. reflexivity. Qed.

Example ms_reads_timespans :
  map ms.defined ["7d"; "1h"; "60"; "2 days"; "1.5H"; ".5m"; "-3s"; "10 Years"]
  = [true; true; true; true; true; true; true; true] /\
  map ms.defined ["abc"; "7 d d"; "d"; "1."; "1.2.3"; "7x"; " 7d"; "7d "]
  = [false; false; false; false; false; false; false; false].
Proof. split; reflexivity. Qed.

(** ** The routes and the gates *)

(** X15. The routing table puts every handler except [register] and
    [login] behind a gate: when both gates refuse a request without
    calling the handler they wrap, every mounted route other than
    [POST /register] and [POST /login] gives the refusal of its gate and
    leaves the store as it is. *)
Theorem routes_behind_the_gates
  (authenticateToken authenticateTokenAdmin : Middleware)
  (env : Env) (w : World) (req : Request) (refusal admin_refusal : Response) :
  (forall next s, authenticateToken next req s = (refusal, s)) ->
  (forall next s, authenticateTokenAdmin next req s = (admin_refusal, s)) ->
  forall method path h s,
    router authenticateToken authenticateTokenAdmin env w method path = Some h ->
    (method = "POST" /\ path = "/register" /\ h = register env w) \/
    (method = "POST" /\ path = "/login" /\ h = login env) \/
    h req s = (refusal, s) \/
    h req s = (admin_refusal, s).
Proof.
  intros Hgate Hadmin method path h s Hroute.
  unfold router in Hroute.
  destruct ((method =? "POST") && (path =? "/register")) eqn:H1.
  { apply andb_prop in H1. destruct H1 as [Hm Hp].
    apply String.eqb_eq in Hm, Hp. inversion Hroute. auto. }
  destruct ((method =? "POST") && (path =? "/login")) eqn:H2.
  { apply andb_prop in H2. destruct H2 as [Hm Hp].
    apply String.eqb_eq in Hm, Hp. inversion Hroute. auto. }
  destruct ((method =? "GET") && (path =? "/profile")).
  { inversion Hroute. right; right; left. apply Hgate. }
  destruct ((method =? "PUT") && (path =? "/profile/:id")).
  { inversion Hroute. right; right; left. apply Hgate. }
  destruct ((method =? "DELETE") && (path =? "/profile/:id")).
  { inversion Hroute. right; right; left. apply Hgate. }
  destruct ((method =? "GET") && (path =? "/customer")).
  { inversion Hroute. right; right; right. apply Hadmin. }
  discriminate.
Qed.

(** A request without a bearer token against the gates of the spec: the
    delete route refuses it and alice stays. *)
Lemma routes_behind_the_gates_witness :
  exists h,
    app Sample.env_set Sample.world_up "DELETE" "/profile/:id" = Some h /\
    h (Sample.request []) Sample.two
    = (res_status_json 401 [("message", VStr "Unauthorized")], Sample.two).
Proof.
  exists (Gate.authenticateToken Sample.env_set Sample.world_up deleteProfile).
  split; [reflexivity|].
  destruct (routes_behind_the_gates
              (Gate.authenticateToken Sample.env_set Sample.world_up)
              (Gate.authenticateTokenAdmin Sample.env_set Sample.world_up)
              Sample.env_set Sample.world_up (Sample.request [])
              (res_status_json 401 [("message", VStr "Unauthorized")])
              (res_status_json 401 [("message", VStr "Unauthorized")])
              (fun next s => eq_refl) (fun next s => eq_refl)
              "DELETE" "/profile/:id"
              (Gate.authenticateToken Sample.env_set Sample.world_up deleteProfile)
              Sample.two eq_refl)
    as [(Hm & _) | [(Hm & Hp & _) | [H | H]]];
    try discriminate; exact H.
Defined.

(** ** Empty fields in an update *)

(** X16. [update] reads its body through truthiness only: two requests
    with the same path identifier and file whose password, user name,
    e-mail and phone fields agree once empty strings count as absent get
    the same answer and leave the same store.  So an empty field cannot
    clear a stored value; it is the same as not sending the field. *)
Theorem update_empty_field_is_absent
  (w : World) (req1 req2 : Request) (s : Store) :
  params_id req1 = params_id req2 ->
  file req1 = file req2 ->
  truthy (body_field "password" (body req1)) = truthy (body_field "password" (body req2)) ->
  truthy (body_field "username" (body req1)) = truthy (body_field "username" (body req2)) ->
  truthy (body_field "email" (body req1)) = truthy (body_field "email" (body req2)) ->
  truthy (body_field "phone" (body req1)) = truthy (body_field "phone" (body req2)) ->
  update w req1 s = update w req2 s.
Proof.
  intros Hid Hfile Hpw Huser Hemail Hphone.
  unfold update, assign_fields, assign_image.
  rewrite Hid, Hfile, Hpw, Huser, Hemail, Hphone. reflexivity.
Qed.

Lemma update_empty_field_is_absent_witness :
  update Sample.world_down
    (Sample.bearer (Sample.bob_token Sample.env_set) (VObjectId 0)
       [("phone", ""); ("username", "alicia")] None)
    Sample.two
  = update Sample.world_down
      (Sample.bearer (Sample.bob_token Sample.env_set) (VObjectId 0)
         [("username", "alicia")] None)
      Sample.two.
Proof.
  apply (update_empty_field_is_absent Sample.world_down
           (Sample.bearer (Sample.bob_token Sample.env_set) (VObjectId 0)
              [("phone", ""); ("username", "alicia")] None)
           (Sample.bearer (Sample.bob_token Sample.env_set) (VObjectId 0)
              [("username", "alicia")] None)
           Sample.two);
    reflexivity.
Defined.

Example update_empty_phone_keeps_phone :
  find (has_id 0)
    (docs (snd (update Sample.world_down
                  (Sample.bearer (Sample.bob_token Sample.env_set) (VObjectId 0)
                     [("phone", "")] None)
                  Sample.two)))
  = Some Sample.alice.
Proof. reflexivity. Qed.
